(** * AWS IoT topic rule construct: [packages/@aws-cdk/aws-iot/lib/topic-rule.ts]

    A shallow embedding of the [TopicRule] construct: its constructor and
    the static import [TopicRule.fromTopicRuleArn].  The construct tree is
    an explicit state threaded through a small state-and-exception monad;
    a JavaScript [throw] leaves the tree as it was when the exception was
    raised.  The collaborators of [@aws-cdk/core] that the file calls
    are an interface ([Stack.t]) and a reference instance ([coreStack]). *)

From Stdlib Require Import String Ascii List Bool Lia.
Import ListNotations.
Open Scope string_scope.

(** ** Strings, the JavaScript way *)

(** [s.split(sep)] for a one-character separator: never the empty list. *)
Fixpoint splitOn (sep : ascii) (s : string) : list string :=
  match s with
  | EmptyString => [EmptyString]
  | String c s' =>
      if Ascii.eqb c sep then EmptyString :: splitOn sep s'
      else match splitOn sep s' with
           | h :: t => String c h :: t
           | [] => [String c EmptyString]
           end
  end.

(** The text before and after the first [sep] of [s] ([s.indexOf(sep)]
    followed by the two [substring]s); [None] when [sep] does not occur. *)
Fixpoint cut (sep : ascii) (s : string) : option (string * string) :=
  match s with
  | EmptyString => None
  | String c s' =>
      if Ascii.eqb c sep then Some (EmptyString, s')
      else match cut sep s' with
           | Some (a, b) => Some (String c a, b)
           | None => None
           end
  end.

(** [s.includes(c)]. *)
Fixpoint has_char (c : ascii) (s : string) : bool :=
  match s with
  | EmptyString => false
  | String d s' => Ascii.eqb d c || has_char c s'
  end.

(** [s.endsWith(suffix)]. *)
Fixpoint endsWith (s suffix : string) : bool :=
  if String.eqb s suffix then true
  else match s with
       | EmptyString => false
       | String _ s' => endsWith s' suffix
       end.

(** Truthiness of a [string | undefined]: [undefined] and the empty string
    are falsy, every other string is truthy. *)
Definition truthy (v : option string) : bool :=
  match v with
  | Some (String _ _) => true
  | Some EmptyString => false
  | None => false
  end.

(** [new Error(message)]. *)
Inductive JsError : Type :=
| Error (message : string).

(** ** The collaborators of [@aws-cdk/core] *)

(** Modelled from the spec: [ArnFormat] of [@aws-cdk/core] is not in
    [src/]; the construct uses one member, the "slash resource name"
    convention [...:resource/resourceName]. *)
Inductive ArnFormat : Type :=
| SLASH_RESOURCE_NAME.

Module ArnComponents.
(** Modelled from the spec: [ArnComponents] of [@aws-cdk/core] is not in
    [src/]; these are the three fields the construct reads or writes.
    [resourceName] is [string | undefined]. *)
Record t : Type := mk {
  service : string;
  resource : string;
  resourceName : option string
}.
End ArnComponents.

Module Stack.
(** Modelled from the spec: [Stack] of [@aws-cdk/core] is not in [src/].
    The capabilities the construct relies on: "ARN splitting by a named
    convention", "producing a fully qualified ARN from {service, resource,
    resourceName}", and the provider that realises the stack's resources:
    [assignName] is the name it gives the resource registered at a path
    when the record submitted for it has none ("provider-assigned if
    absent"). *)
Record t : Type := mk {
  splitArn : string -> ArnFormat -> ArnComponents.t;
  formatArn : ArnComponents.t -> string;
  assignName : list string -> string
}.
End Stack.

(** A construct is known by its path in the tree; [Stack_of] is
    [Stack.of(construct)]. *)
Record Construct : Type := mkConstruct {
  path : list string;
  Stack_of : Stack.t
}.

(** [new Construct(scope, id)]: the child's place in the tree. *)
Definition child (scope : Construct) (id : string) : Construct :=
  mkConstruct (path scope ++ [id])%list (Stack_of scope).

(** *** The reference stack *)

Module Arn.

(** Modelled from the spec: part of [Arn.split] of [@aws-cdk/core], which
    is not in [src/].  The text after the last [:] of an identifier: its
    "slash-separated resource-type/resource-name suffix". *)
Definition resourcePart (arn : string) : string :=
  last (splitOn ":" arn) EmptyString.

(** Modelled from the spec: [Arn.split] of [@aws-cdk/core], behind
    [Stack.splitArn], is not in [src/].  "Splits the identifier using the
    slash resource name convention; extracts the trailing resource name":
    the identifier ends in a [resource-type/resource-name] suffix (as in
    [...:rule/MyRule]), and an identifier "missing a [/]-delimited
    resource-name segment" has no resource name. *)
Definition split (arn : string) (arnFormat : ArnFormat) : ArnComponents.t :=
  let components := splitOn ":" arn in
  match arnFormat with
  | SLASH_RESOURCE_NAME =>
      match cut "/" (resourcePart arn) with
      | Some (resource, resourceName) =>
          ArnComponents.mk (nth 2 components EmptyString) resource (Some resourceName)
      | None =>
          ArnComponents.mk (nth 2 components EmptyString) (resourcePart arn) None
      end
  end.

(** Modelled from the spec: [Arn.format] of [@aws-cdk/core], behind
    [Stack.formatArn], is not in [src/].  "Producing a fully qualified ARN
    from {service, resource, resourceName}", in the shape the source
    documents for a topic rule:
    [arn:aws:iot:us-east-2:123456789012:rule/rule_name]. *)
Definition format (partition region account : string)
  (components : ArnComponents.t) : string :=
  "arn:" ++ partition ++ ":" ++ ArnComponents.service components
    ++ ":" ++ region ++ ":" ++ account
    ++ ":" ++ ArnComponents.resource components
    ++ match ArnComponents.resourceName components with
       | Some name => "/" ++ name
       | None => EmptyString
       end.

End Arn.

(** Modelled from the spec: a [Stack] object of [@aws-cdk/core], which is
    not in [src/].  The stack of an environment
    [partition]/[region]/[account] whose provider names unnamed resources
    with [assignName]. *)
Definition coreStack (partition region account : string)
  (assignName : list string -> string) : Stack.t :=
  Stack.mk Arn.split (Arn.format partition region account) assignName.

(** ** The construct tree *)

Module ResourceProps.
(** Modelled from the spec: [ResourceProps] of [@aws-cdk/core] is not in
    [src/]; these are the two options the source passes to the [Resource]
    constructor. *)
Record t : Type := mk {
  physicalName : option string;
  environmentFromArn : option string
}.
End ResourceProps.

(** Modelled from the spec: the [ActionProperty] type of [iot.generated] is
    not in [src/]; the source never builds one. *)
Inductive ActionProperty : Type :=
| Action (definition : string).

Module TopicRulePayload.
(** Modelled from the spec: [CfnTopicRule.TopicRulePayloadProperty] of
    [iot.generated] is not in [src/]; the payload of the declarative
    shape [{ ruleName?, topicRulePayload: { actions, awsIotSqlVersion,
    sql } }]. *)
Record t : Type := mk {
  actions : list ActionProperty;
  awsIotSqlVersion : string;
  sql : string
}.
End TopicRulePayload.

Module CfnTopicRuleProps.
(** Modelled from the spec: [CfnTopicRuleProps] of [iot.generated] is not
    in [src/]; the record of the declarative shape
    [{ ruleName?, topicRulePayload }]. *)
Record t : Type := mk {
  ruleName : option string;
  topicRulePayload : TopicRulePayload.t
}.
End CfnTopicRuleProps.

(** What a node of the tree is: a plain [Resource] construct (the
    [TopicRule] itself, or an imported one), or the [CfnTopicRule] record
    handed to the provisioning engine. *)
Inductive NodeKind : Type :=
| ResourceNode (props : ResourceProps.t)
| CfnTopicRuleNode (props : CfnTopicRuleProps.t).

Record Node : Type := mkNode {
  nodePath : list string;
  nodeKind : NodeKind
}.

(** The construct tree, nodes in the order they were created. *)
Definition Tree : Type := list Node.

(** The records the provisioning engine will realise, with their paths. *)
Fixpoint cfnResources (tree : Tree) : list (list string * CfnTopicRuleProps.t) :=
  match tree with
  | [] => []
  | mkNode p (CfnTopicRuleNode props) :: rest => (p, props) :: cfnResources rest
  | mkNode _ (ResourceNode _) :: rest => cfnResources rest
  end.

(** ** State and exceptions *)

Inductive Outcome (A : Type) : Type :=
| Return (value : A)
| Throw (error : JsError).
Arguments Return {A} value.
Arguments Throw {A} error.

(** A computation over the construct tree: it returns or throws, and in
    both cases leaves a tree behind. *)
Definition M (A : Type) : Type := Tree -> Outcome A * Tree.

Definition ret {A : Type} (a : A) : M A := fun tree => (Return a, tree).

Definition throw {A : Type} (e : JsError) : M A := fun tree => (Throw e, tree).

Definition bindM {A B : Type} (c : M A) (k : A -> M B) : M B :=
  fun tree =>
    match c tree with
    | (Return a, tree') => k a tree'
    | (Throw e, tree') => (Throw e, tree')
    end.

Declare Scope construct_scope.
Delimit Scope construct_scope with construct.
Notation "x <- c ;; k" := (bindM c (fun x => k))
  (at level 61, c at next level, right associativity) : construct_scope.
Open Scope construct_scope.

(** Modelled from the spec: [Resource] of [@aws-cdk/core] is not in
    [src/]; a resource construct is a node of the tree that knows the
    physical name it was given, if any. *)
Record Resource : Type := mkResource {
  node : Construct;
  physicalName : option string
}.

(** Modelled from the spec: the constructor of [Resource] in
    [@aws-cdk/core] is not in [src/].  It registers the new construct as
    child [id] of [scope] and keeps the physical name it was given. *)
Definition Resource_new (scope : Construct) (id : string) (props : ResourceProps.t)
  : M Resource :=
  fun tree =>
    (Return (mkResource (child scope id) (ResourceProps.physicalName props)),
     (tree ++ [mkNode (path (child scope id)) (ResourceNode props)])%list).

(** Modelled from the spec: [CfnTopicRule] of [iot.generated] is not in
    [src/]; the "attribute accessors" the construct reads from a
    registered rule. *)
Record CfnTopicRule : Type := mkCfnTopicRule {
  attrArn : string;
  ref : string
}.

(** Modelled from the spec: the constructor of [CfnTopicRule] in
    [iot.generated] is not in [src/].  "A resource-registration call
    accepting a typed payload and returning attribute accessors": [ref]
    stands for the name of the realised rule, the one in the record or
    else the one the provider assigns, and [attrArn] for its ARN. *)
Definition CfnTopicRule_new (scope : Construct) (id : string)
  (props : CfnTopicRuleProps.t) : M CfnTopicRule :=
  fun tree =>
    let self := child scope id in
    let name := match CfnTopicRuleProps.ruleName props with
                | Some n => n
                | None => Stack.assignName (Stack_of self) (path self)
                end in
    (Return (mkCfnTopicRule
               (Stack.formatArn (Stack_of self)
                  (ArnComponents.mk "iot" "rule" (Some name)))
               name),
     (tree ++ [mkNode (path self) (CfnTopicRuleNode props)])%list).

(** Modelled from the spec: [Resource.getResourceArnAttribute] of
    [@aws-cdk/core] is not in [src/].  "Attribute-resolution helpers
    producing a fully qualified ARN from {service, resource,
    resourceName}"; without a resource name in the components the ARN is
    the one the registered resource reports. *)
Definition getResourceArnAttribute (this : Resource) (arnAttr : string)
  (arnComponents : ArnComponents.t) : string :=
  match ArnComponents.resourceName arnComponents with
  | Some _ => Stack.formatArn (Stack_of (node this)) arnComponents
  | None => arnAttr
  end.

(** Modelled from the spec: [Resource.getResourceNameAttribute] of
    [@aws-cdk/core] is not in [src/].  "Name-resolution from a raw
    reference". *)
Definition getResourceNameAttribute (this : Resource) (nameAttr : string) : string :=
  nameAttr.

(** ** [iot-sql.ts] *)

Module IotSqlConfig.
(** Modelled from the spec: [IotSqlConfig] of [./iot-sql] is not in
    [src/]; the "{query, version}" a bound filter configuration gives. *)
Record t : Type := mk {
  awsIotSqlVersion : string;
  sql : string
}.
End IotSqlConfig.

Module IotSql.
(** Modelled from the spec: [IotSql] of [./iot-sql] is not in [src/].  The
    filter configuration "exposes bind(context) -> {query, version}". *)
Record t : Type := mk {
  bind : Construct -> IotSqlConfig.t
}.
End IotSql.

(** ** [topic-rule.ts] *)

Module ITopicRule.
(** [ITopicRule]: the two attributes of a rule. *)
Record t : Type := mk {
  topicRuleArn : string;
  topicRuleName : string
}.
End ITopicRule.

Module TopicRuleProps.
(** [TopicRuleProps]. *)
Record t : Type := mk {
  topicRuleName : option string;
  sql : IotSql.t
}.
End TopicRuleProps.

(** The message of the one [throw] of the file. *)
Definition missingTopicRuleName (topicRuleArn : string) : string :=
  "Missing topic rule name in ARN: '" ++ topicRuleArn ++ "'".

(** [class Import extends Resource implements ITopicRule], with the two
    variables its field initialisers capture. *)
Definition Import_new (topicRuleArn resourceName : string)
  (scope : Construct) (id : string) (props : ResourceProps.t) : M ITopicRule.t :=
  _ <- Resource_new scope id props ;;
  ret (ITopicRule.mk topicRuleArn resourceName).

(** [TopicRule.fromTopicRuleArn(scope, id, topicRuleArn)]. *)
Definition fromTopicRuleArn (scope : Construct) (id : string) (topicRuleArn : string)
  : M ITopicRule.t :=
  let parts := Stack.splitArn (Stack_of scope) topicRuleArn SLASH_RESOURCE_NAME in
  if negb (truthy (ArnComponents.resourceName parts))
  then throw (Error (missingTopicRuleName topicRuleArn))
  else
    let resourceName := match ArnComponents.resourceName parts with
                        | Some name => name
                        | None => EmptyString
                        end in
    Import_new topicRuleArn resourceName scope id
      (ResourceProps.mk None (Some topicRuleArn)).

(** [new TopicRule(scope, id, props)]. *)
Definition TopicRule_new (scope : Construct) (id : string) (props : TopicRuleProps.t)
  : M ITopicRule.t :=
  this <- Resource_new scope id
            (ResourceProps.mk (TopicRuleProps.topicRuleName props) None) ;;
  let sqlConfig := IotSql.bind (TopicRuleProps.sql props) (node this) in
  resource <- CfnTopicRule_new (node this) "Resource"
                (CfnTopicRuleProps.mk (physicalName this)
                   (TopicRulePayload.mk []
                      (IotSqlConfig.awsIotSqlVersion sqlConfig)
                      (IotSqlConfig.sql sqlConfig))) ;;
  let topicRuleArn :=
    getResourceArnAttribute this (attrArn resource)
      (ArnComponents.mk "iot" "rule" (physicalName this)) in
  let topicRuleName := getResourceNameAttribute this (ref resource) in
  ret (ITopicRule.mk topicRuleArn topicRuleName).

(** The name the realised rule has: the one given, or else the one the
    provider assigns to the [CfnTopicRule] registered under the rule. *)
Definition realisedName (scope : Construct) (id : string) (props : TopicRuleProps.t)
  : string :=
  match TopicRuleProps.topicRuleName props with
  | Some name => name
  | None => Stack.assignName (Stack_of scope) ((path scope ++ [id]) ++ ["Resource"])%list
  end.

(** The record the constructor submits. *)
Definition submittedRecord (scope : Construct) (id : string) (props : TopicRuleProps.t)
  : CfnTopicRuleProps.t :=
  let sqlConfig := IotSql.bind (TopicRuleProps.sql props) (child scope id) in
  CfnTopicRuleProps.mk (TopicRuleProps.topicRuleName props)
    (TopicRulePayload.mk []
       (IotSqlConfig.awsIotSqlVersion sqlConfig)
       (IotSqlConfig.sql sqlConfig)).

(** ** The life of a rule object *)









(** ** Running examples *)

Definition exampleStack : Stack.t :=
  coreStack "aws" "us-east-2" "123456789012" (fun p => String.concat "-" p).

Definition exampleScope : Construct := mkConstruct ["Stack"] exampleStack.

Definition exampleSql : IotSql.t :=
  IotSql.mk (fun _ => IotSqlConfig.mk "2016-03-23" "SELECT * FROM 'device/+/data'").

Definition exampleArn : string := "arn:aws:iot:us-east-2:123456789012:rule/MyRule".

(** A stack that splits like the reference one but reports every
    identifier as an S3 object. *)
Definition relabelledStack : Stack.t :=
  Stack.mk
    (fun arn arnFormat =>
       ArnComponents.mk "s3" "object"
         (ArnComponents.resourceName (Arn.split arn arnFormat)))
    (Stack.formatArn exampleStack)
    (Stack.assignName exampleStack).

(** * Properties *)

(** ** Concrete runs *)

Example import_MyRule :
  fromTopicRuleArn exampleScope "Imported" exampleArn []
  = (Return (ITopicRule.mk exampleArn "MyRule"),
     [mkNode ["Stack"; "Imported"]
        (ResourceNode (ResourceProps.mk None (Some exampleArn)))]).
Proof. reflexivity. Qed.

Example import_without_name :
  fromTopicRuleArn exampleScope "Imported" "arn:aws:iot:us-east-2:123456789012:rule" []
  = (Throw (Error "Missing topic rule name in ARN: 'arn:aws:iot:us-east-2:123456789012:rule'"),
     []).
Proof. reflexivity. Qed.

Example new_MyRule :
  TopicRule_new exampleScope "MyTopicRule"
    (TopicRuleProps.mk (Some "MyRule") exampleSql) []
  = (Return (ITopicRule.mk exampleArn "MyRule"),
     [mkNode ["Stack"; "MyTopicRule"]
        (ResourceNode (ResourceProps.mk (Some "MyRule") None));
      mkNode ["Stack"; "MyTopicRule"; "Resource"]
        (CfnTopicRuleNode
           (CfnTopicRuleProps.mk (Some "MyRule")
              (TopicRulePayload.mk [] "2016-03-23" "SELECT * FROM 'device/+/data'")))]).
Proof. reflexivity. Qed.

Example new_unnamed :
  fst (TopicRule_new exampleScope "MyTopicRule" (TopicRuleProps.mk None exampleSql) [])
  = Return (ITopicRule.mk
              "arn:aws:iot:us-east-2:123456789012:rule/Stack-MyTopicRule-Resource"
              "Stack-MyTopicRule-Resource").
Proof. reflexivity. Qed.

(** ** Strings *)

Lemma string_app_assoc (a b c : string) : (a ++ b) ++ c = a ++ (b ++ c).
Proof.
  induction a as [|x a IH]; simpl; [reflexivity | now rewrite IH].
Qed.

Lemma splitOn_not_nil (sep : ascii) (s : string) : splitOn sep s <> [].
Proof.
  destruct s as [|c s]; simpl; [discriminate|].
  destruct (Ascii.eqb c sep); [discriminate|].
  destruct (splitOn sep s); discriminate.
Qed.

(** Splitting distributes over a separator that is written out. *)
Lemma splitOn_app_sep (sep : ascii) (p r : string) :
  splitOn sep (p ++ String sep r) = (splitOn sep p ++ splitOn sep r)%list.
Proof.
  induction p as [|c p IH]; simpl.
  - now rewrite Ascii.eqb_refl.
  - destruct (Ascii.eqb c sep).
    + now rewrite IH.
    + rewrite IH.
      destruct (splitOn sep p) as [|h t] eqn:E; [|reflexivity].
      now apply splitOn_not_nil in E.
Qed.

Lemma splitOn_no_sep (sep : ascii) (s : string) :
  has_char sep s = false -> splitOn sep s = [s].
Proof.
  induction s as [|c s IH]; simpl; [reflexivity|].
  intros H. apply orb_false_elim in H as [Hc Hs].
  now rewrite Hc, (IH Hs).
Qed.

Lemma splitOn_singleton (sep : ascii) (s h : string) :
  splitOn sep s = [h] -> s = h.
Proof.
  revert h. induction s as [|c s IH]; simpl; intros h H.
  - now injection H.
  - destruct (Ascii.eqb c sep).
    + injection H as _ H. now apply splitOn_not_nil in H.
    + destruct (splitOn sep s) as [|h' t] eqn:E.
      * now apply splitOn_not_nil in E.
      * injection H as <- ->. now rewrite (IH h' eq_refl).
Qed.

(** The last component of a split is a suffix of the string. *)
Lemma last_splitOn_suffix (sep : ascii) (s : string) :
  exists p, s = p ++ last (splitOn sep s) EmptyString.
Proof.
  induction s as [|c s [p IH]].
  - now exists EmptyString.
  - cbn [splitOn]. destruct (Ascii.eqb c sep).
    + exists (String c p). cbn [last].
      destruct (splitOn sep s) as [|h t] eqn:E.
      * now apply splitOn_not_nil in E.
      * simpl. now f_equal.
    + destruct (splitOn sep s) as [|h t] eqn:E.
      * now apply splitOn_not_nil in E.
      * destruct t as [|h2 t].
        -- exists EmptyString. simpl. f_equal. now apply (splitOn_singleton sep).
        -- exists (String c p). simpl. f_equal. exact IH.
Qed.

Lemma cut_none (sep : ascii) (s : string) :
  has_char sep s = false -> cut sep s = None.
Proof.
  induction s as [|c s IH]; simpl; [reflexivity|].
  intros H. apply orb_false_elim in H as [Hc Hs].
  now rewrite Hc, (IH Hs).
Qed.

Lemma cut_some (sep : ascii) (s a b : string) :
  cut sep s = Some (a, b) -> s = a ++ String sep b.
Proof.
  revert a. induction s as [|c s IH]; simpl; intros a H; [discriminate|].
  destruct (Ascii.eqb_spec c sep) as [->|_].
  - now injection H as <- <-.
  - destruct (cut sep s) as [[a' b']|]; [|discriminate].
    injection H as <- <-. simpl. f_equal. now apply IH.
Qed.

Lemma endsWith_app (p s : string) : endsWith (p ++ s) s = true.
Proof.
  induction p as [|c p IH].
  - destruct s; simpl; [reflexivity|].
    now rewrite Ascii.eqb_refl, String.eqb_refl.
  - cbn [append endsWith]. now destruct (String.eqb (String c (p ++ s)) s).
Qed.

(** [endsWith] decides "is a suffix of". *)
Lemma endsWith_true_iff (s suffix : string) :
  endsWith s suffix = true <-> exists p, s = p ++ suffix.
Proof.
  split.
  - induction s as [|c s IH].
    + cbn [endsWith].
      destruct (String.eqb_spec EmptyString suffix) as [<-|_]; [|discriminate].
      now exists EmptyString.
    + cbn [endsWith].
      destruct (String.eqb_spec (String c s) suffix) as [<-|_].
      * now exists EmptyString.
      * intros H. destruct (IH H) as [p ->]. now exists (String c p).
  - intros [p ->]. apply endsWith_app.
Qed.

(** What the reference split finds in [prefix:resource], when [resource]
    is the last [:]-separated component. *)
Lemma resourcePart_app (p r : string) :
  has_char ":" r = false -> Arn.resourcePart (p ++ String ":" r) = r.
Proof.
  intros H. unfold Arn.resourcePart.
  rewrite splitOn_app_sep, (splitOn_no_sep _ _ H). apply last_last.
Qed.

(** The reference split reads the name of [prefix:rule/name] whenever
    [name] has no [:]. *)
Lemma Arn_split_rule (prefix name : string) :
  has_char ":" name = false ->
  ArnComponents.resourceName
    (Arn.split (prefix ++ ":rule/" ++ name) SLASH_RESOURCE_NAME) = Some name.
Proof.
  intros H. unfold Arn.split.
  change (prefix ++ ":rule/" ++ name) with (prefix ++ String ":" ("rule/" ++ name)).
  rewrite resourcePart_app; [reflexivity|].
  simpl. exact H.
Qed.

(** Whatever the reference split reports as the name ends the identifier,
    after a [/]. *)
Lemma Arn_split_suffix (arn name : string) :
  ArnComponents.resourceName (Arn.split arn SLASH_RESOURCE_NAME) = Some name ->
  endsWith arn ("/" ++ name) = true.
Proof.
  unfold Arn.split. intros H.
  destruct (cut "/" (Arn.resourcePart arn)) as [[r n]|] eqn:E; [|discriminate].
  injection H as ->.
  apply cut_some in E.
  destruct (last_splitOn_suffix ":" arn) as [p Hp].
  fold (Arn.resourcePart arn) in Hp. rewrite E in Hp.
  apply endsWith_true_iff. exists (p ++ r).
  rewrite Hp. now rewrite string_app_assoc.
Qed.

Lemma endsWith_app_r (p s suffix : string) :
  endsWith s suffix = true -> endsWith (p ++ s) suffix = true.
Proof.
  intros H. apply endsWith_true_iff in H as [q ->].
  apply endsWith_true_iff. exists (p ++ q). now rewrite string_app_assoc.
Qed.

(** An ARN the reference stack formats for a rule ends in [rule/name]. *)
Lemma Arn_format_rule (partition region account service name : string) :
  endsWith
    (Arn.format partition region account
       (ArnComponents.mk service "rule" (Some name)))
    ("rule/" ++ name) = true.
Proof.
  unfold Arn.format. cbn [ArnComponents.service ArnComponents.resource
                          ArnComponents.resourceName].
  do 9 apply endsWith_app_r.
  apply (endsWith_app EmptyString).
Qed.

(** ** The tree *)

Lemma cfnResources_app (t1 t2 : Tree) :
  cfnResources (t1 ++ t2)%list = (cfnResources t1 ++ cfnResources t2)%list.
Proof.
  induction t1 as [|[p [props|props]] t1 IH]; simpl; [reflexivity|exact IH|].
  now rewrite IH.
Qed.

(** ** The two operations, run *)

(** The import in one equation: it returns exactly when the split reports
    a non-empty resource name, and only then touches the tree. *)
Lemma fromTopicRuleArn_run (scope : Construct) (id topicRuleArn : string) (tree : Tree) :
  fromTopicRuleArn scope id topicRuleArn tree =
  match ArnComponents.resourceName
          (Stack.splitArn (Stack_of scope) topicRuleArn SLASH_RESOURCE_NAME) with
  | Some (String c s) =>
      (Return (ITopicRule.mk topicRuleArn (String c s)),
       (tree ++ [mkNode (path scope ++ [id])
                   (ResourceNode (ResourceProps.mk None (Some topicRuleArn)))])%list)
  | Some EmptyString | None =>
      (Throw (Error (missingTopicRuleName topicRuleArn)), tree)
  end.
Proof.
  unfold fromTopicRuleArn.
  destruct (ArnComponents.resourceName _) as [[|c s]|]; reflexivity.
Qed.

(** The three ways the import can go: a non-empty name, the empty name,
    no name. *)
Ltac import_cases :=
  rewrite fromTopicRuleArn_run;
  destruct (ArnComponents.resourceName _) as [[|?c ?s]|].

(** What a returning import returned and did. *)
Lemma fromTopicRuleArn_returns (scope : Construct) (id topicRuleArn : string)
  (tree tree' : Tree) (r : ITopicRule.t) :
  fromTopicRuleArn scope id topicRuleArn tree = (Return r, tree') ->
  ITopicRule.topicRuleArn r = topicRuleArn
  /\ ArnComponents.resourceName
       (Stack.splitArn (Stack_of scope) topicRuleArn SLASH_RESOURCE_NAME)
     = Some (ITopicRule.topicRuleName r)
  /\ tree' = (tree ++ [mkNode (path scope ++ [id])
                         (ResourceNode
                            (ResourceProps.mk None (Some topicRuleArn)))])%list.
Proof.
  import_cases; intros H; inversion H; subst; clear H.
  repeat split.
Qed.

(** The constructor in one equation. *)
Lemma TopicRule_new_run (scope : Construct) (id : string) (props : TopicRuleProps.t)
  (tree : Tree) :
  TopicRule_new scope id props tree =
  (Return (ITopicRule.mk
             (Stack.formatArn (Stack_of scope)
                (ArnComponents.mk "iot" "rule" (Some (realisedName scope id props))))
             (realisedName scope id props)),
   (tree ++ [mkNode (path scope ++ [id])
               (ResourceNode
                  (ResourceProps.mk (TopicRuleProps.topicRuleName props) None));
             mkNode ((path scope ++ [id]) ++ ["Resource"])
               (CfnTopicRuleNode (submittedRecord scope id props))])%list).
Proof.
  unfold TopicRule_new, bindM, Resource_new, CfnTopicRule_new, ret,
    getResourceArnAttribute, getResourceNameAttribute, realisedName, submittedRecord.
  cbn. destruct (TopicRuleProps.topicRuleName props);
    rewrite <- !app_assoc; reflexivity.
Qed.

(** ** The import: [TopicRule.fromTopicRuleArn] *)

(** C1.  Whenever the split of the identifier reports no resource name (as
    for [arn:aws:iot:us-east-2:123456789012:rule], which has nothing after
    [rule]), the import throws the error whose message is
    [Missing topic rule name in ARN: '<identifier>'], whatever the stack,
    the scope and the tree. *)
Theorem fromTopicRuleArn_missing_resource_name :
  forall (scope : Construct) (id topicRuleArn : string) (tree : Tree),
    ArnComponents.resourceName
      (Stack.splitArn (Stack_of scope) topicRuleArn SLASH_RESOURCE_NAME) = None ->
    fromTopicRuleArn scope id topicRuleArn tree
    = (Throw (Error ("Missing topic rule name in ARN: '" ++ topicRuleArn ++ "'")), tree).
Proof.
  intros scope id arn tree H.
  rewrite fromTopicRuleArn_run, H. reflexivity.
Qed.

Lemma fromTopicRuleArn_missing_resource_name_witness :
  ArnComponents.resourceName
    (Stack.splitArn (Stack_of exampleScope)
       "arn:aws:iot:us-east-2:123456789012:rule" SLASH_RESOURCE_NAME) = None
  /\ fromTopicRuleArn exampleScope "Imported"
       "arn:aws:iot:us-east-2:123456789012:rule" []
     = (Throw (Error "Missing topic rule name in ARN: 'arn:aws:iot:us-east-2:123456789012:rule'"),
        []).
Proof.
  split; [reflexivity|].
  apply (fromTopicRuleArn_missing_resource_name exampleScope "Imported"
           "arn:aws:iot:us-east-2:123456789012:rule" []).
  reflexivity.
Defined.

(** C2.  For an identifier [prefix:rule/name] from which the split reads
    the non-empty resource name [name], the import returns the identity
    whose [topicRuleName] is [name] and whose [topicRuleArn] is the
    identifier, unchanged. *)
Theorem fromTopicRuleArn_round_trip :
  forall (scope : Construct) (id prefix name : string) (tree : Tree),
    ArnComponents.resourceName
      (Stack.splitArn (Stack_of scope) (prefix ++ ":rule/" ++ name)
         SLASH_RESOURCE_NAME) = Some name ->
    name <> EmptyString ->
    fst (fromTopicRuleArn scope id (prefix ++ ":rule/" ++ name) tree)
    = Return (ITopicRule.mk (prefix ++ ":rule/" ++ name) name).
Proof.
  intros scope id prefix name tree H Hname.
  rewrite fromTopicRuleArn_run, H.
  destruct name as [|c s]; [contradiction|reflexivity].
Qed.

Lemma fromTopicRuleArn_round_trip_witness :
  fst (fromTopicRuleArn exampleScope "Imported"
         "arn:aws:iot:us-east-2:123456789012:rule/MyRule" [])
  = Return (ITopicRule.mk "arn:aws:iot:us-east-2:123456789012:rule/MyRule" "MyRule").
Proof.
  apply (fromTopicRuleArn_round_trip exampleScope "Imported"
           "arn:aws:iot:us-east-2:123456789012" "MyRule" []).
  - reflexivity.
  - discriminate.
Defined.

(** C10.  Whenever the split of the identifier reports the empty string as
    resource name (as for [arn:aws:iot:us-east-2:123456789012:rule/]), the
    import throws the same error as when it reports none: the empty name
    is falsy. *)
Theorem fromTopicRuleArn_empty_resource_name :
  forall (scope : Construct) (id topicRuleArn : string) (tree : Tree),
    ArnComponents.resourceName
      (Stack.splitArn (Stack_of scope) topicRuleArn SLASH_RESOURCE_NAME)
    = Some EmptyString ->
    fromTopicRuleArn scope id topicRuleArn tree
    = (Throw (Error ("Missing topic rule name in ARN: '" ++ topicRuleArn ++ "'")), tree).
Proof.
  intros scope id arn tree H.
  rewrite fromTopicRuleArn_run, H. reflexivity.
Qed.

Lemma fromTopicRuleArn_empty_resource_name_witness :
  ArnComponents.resourceName
    (Stack.splitArn (Stack_of exampleScope)
       "arn:aws:iot:us-east-2:123456789012:rule/" SLASH_RESOURCE_NAME)
  = Some EmptyString
  /\ fromTopicRuleArn exampleScope "Imported"
       "arn:aws:iot:us-east-2:123456789012:rule/" []
     = (Throw (Error "Missing topic rule name in ARN: 'arn:aws:iot:us-east-2:123456789012:rule/'"),
        []).
Proof.
  split; [reflexivity|].
  apply (fromTopicRuleArn_empty_resource_name exampleScope "Imported"
           "arn:aws:iot:us-east-2:123456789012:rule/" []).
  reflexivity.
Defined.

(** C9.  When the import throws, the tree is the one it was called with:
    the check precedes [new Import], so no node has been registered. *)
Theorem fromTopicRuleArn_error_atomic :
  forall (scope : Construct) (id topicRuleArn : string) (tree tree' : Tree)
         (e : JsError),
    fromTopicRuleArn scope id topicRuleArn tree = (Throw e, tree') ->
    tree' = tree.
Proof.
  intros scope id arn tree tree' e.
  import_cases; intros H; now inversion H.
Qed.

Lemma fromTopicRuleArn_error_atomic_witness :
  snd (fromTopicRuleArn exampleScope "Imported"
         "arn:aws:iot:us-east-2:123456789012:rule" []) = [].
Proof.
  apply (fromTopicRuleArn_error_atomic exampleScope "Imported"
           "arn:aws:iot:us-east-2:123456789012:rule" []
           (snd (fromTopicRuleArn exampleScope "Imported"
                   "arn:aws:iot:us-east-2:123456789012:rule" []))
           (Error "Missing topic rule name in ARN: 'arn:aws:iot:us-east-2:123456789012:rule'")).
  reflexivity.
Defined.

(** C7, as stated, fails: a successful import leaves a tree that differs
    from the one it was called with.  Here the empty tree gains the node
    of the imported construct. *)
Lemma fromTopicRuleArn_pure_counterexample :
  exists (r : ITopicRule.t) (tree' : Tree),
    fromTopicRuleArn exampleScope "Imported" exampleArn [] = (Return r, tree')
    /\ tree' <> [].
Proof.
  exists (ITopicRule.mk exampleArn "MyRule").
  exists [mkNode ["Stack"; "Imported"]
            (ResourceNode (ResourceProps.mk None (Some exampleArn)))].
  split; [reflexivity|discriminate].
Qed.

(** C7, amended.  A successful import returns the identity made of the
    identifier it was given and of the resource name the split read from
    it; it submits no record to the provisioning engine; and its one
    effect on the tree is to register the imported construct as child [id]
    of [scope], a plain resource node that carries the identifier as
    [environmentFromArn]. *)
Theorem fromTopicRuleArn_frame :
  forall (scope : Construct) (id topicRuleArn : string) (tree tree' : Tree)
         (r : ITopicRule.t),
    fromTopicRuleArn scope id topicRuleArn tree = (Return r, tree') ->
    ITopicRule.topicRuleArn r = topicRuleArn
    /\ ArnComponents.resourceName
         (Stack.splitArn (Stack_of scope) topicRuleArn SLASH_RESOURCE_NAME)
       = Some (ITopicRule.topicRuleName r)
    /\ cfnResources tree' = cfnResources tree
    /\ tree' = (tree ++ [mkNode (path scope ++ [id])
                           (ResourceNode
                              (ResourceProps.mk None (Some topicRuleArn)))])%list.
Proof.
  intros scope id arn tree tree' r H.
  apply fromTopicRuleArn_returns in H as (Harn & Hname & ->).
  repeat split; try assumption.
  rewrite cfnResources_app. simpl. apply app_nil_r.
Qed.

Lemma fromTopicRuleArn_frame_witness :
  ITopicRule.topicRuleArn (ITopicRule.mk exampleArn "MyRule") = exampleArn
  /\ ArnComponents.resourceName
       (Stack.splitArn (Stack_of exampleScope) exampleArn SLASH_RESOURCE_NAME)
     = Some (ITopicRule.topicRuleName (ITopicRule.mk exampleArn "MyRule"))
  /\ cfnResources
       [mkNode ["Stack"; "Imported"]
          (ResourceNode (ResourceProps.mk None (Some exampleArn)))]
     = cfnResources []
  /\ [mkNode ["Stack"; "Imported"]
        (ResourceNode (ResourceProps.mk None (Some exampleArn)))]
     = ([] ++ [mkNode (path exampleScope ++ ["Imported"])
                 (ResourceNode (ResourceProps.mk None (Some exampleArn)))])%list.
Proof.
  apply (fromTopicRuleArn_frame exampleScope "Imported" exampleArn []).
  reflexivity.
Defined.

(** ** The constructor: [new TopicRule] *)

(** C3.  Every construction submits exactly one record to the provisioning
    engine, under [Resource] below the new rule: its actions are the empty
    list, and its [awsIotSqlVersion] and [sql] are the ones [props.sql]
    gives when bound to the rule. *)
Theorem TopicRule_new_payload :
  forall (scope : Construct) (id : string) (props : TopicRuleProps.t) (tree : Tree),
    cfnResources (snd (TopicRule_new scope id props tree))
    = (cfnResources tree
       ++ [(((path scope ++ [id]) ++ ["Resource"]),
            CfnTopicRuleProps.mk (TopicRuleProps.topicRuleName props)
              (TopicRulePayload.mk []
                 (IotSqlConfig.awsIotSqlVersion
                    (IotSql.bind (TopicRuleProps.sql props) (child scope id)))
                 (IotSqlConfig.sql
                    (IotSql.bind (TopicRuleProps.sql props) (child scope id)))))])%list.
Proof.
  intros scope id props tree.
  rewrite TopicRule_new_run. cbn [snd].
  rewrite cfnResources_app. reflexivity.
Qed.

(** C8.  The constructor returns for every input, and the import either
    returns or throws the missing-name error: no other error leaves the
    two operations. *)
Theorem only_missing_name_is_thrown :
  (forall (scope : Construct) (id : string) (props : TopicRuleProps.t) (tree : Tree),
      exists (r : ITopicRule.t) (tree' : Tree),
        TopicRule_new scope id props tree = (Return r, tree'))
  /\ (forall (scope : Construct) (id topicRuleArn : string) (tree : Tree),
         (exists (r : ITopicRule.t) (tree' : Tree),
             fromTopicRuleArn scope id topicRuleArn tree = (Return r, tree'))
         \/ fromTopicRuleArn scope id topicRuleArn tree
            = (Throw (Error (missingTopicRuleName topicRuleArn)), tree)).
Proof.
  split.
  - intros scope id props tree. rewrite TopicRule_new_run. eauto.
  - intros scope id arn tree. import_cases; eauto.
Qed.

(** ** In a scope of a reference stack *)

Section ReferenceStack.

Variables partition region account : string.
Variable assignName : list string -> string.

(** A construct at path [p] of the stack. *)
Local Abbreviation at_path p :=
  (mkConstruct p (coreStack partition region account assignName)).

(** An identifier without a [/] after its last [:] has no resource name:
    the import throws. *)
Lemma fromTopicRuleArn_no_slash (p : list string) (id topicRuleArn : string)
  (tree : Tree) :
  has_char "/" (Arn.resourcePart topicRuleArn) = false ->
  fromTopicRuleArn (at_path p) id topicRuleArn tree
  = (Throw (Error (missingTopicRuleName topicRuleArn)), tree).
Proof.
  intros H. rewrite fromTopicRuleArn_run. cbn [Stack_of coreStack Stack.splitArn].
  unfold Arn.split. now rewrite (cut_none _ _ H).
Qed.

(** [prefix:rule/name] is imported as the rule [name], whatever the prefix,
    when [name] is not empty and has no [:]. *)
Lemma fromTopicRuleArn_rule (p : list string) (id prefix name : string)
  (tree : Tree) :
  name <> EmptyString ->
  has_char ":" name = false ->
  fst (fromTopicRuleArn (at_path p) id (prefix ++ ":rule/" ++ name) tree)
  = Return (ITopicRule.mk (prefix ++ ":rule/" ++ name) name).
Proof.
  intros Hne Hc. rewrite fromTopicRuleArn_run.
  cbn [Stack_of coreStack Stack.splitArn]. rewrite (Arn_split_rule _ _ Hc).
  destruct name; [contradiction|reflexivity].
Qed.

(** C5.  Constructing a rule with the explicit name [MyRule] yields
    [topicRuleName = "MyRule"] and a [topicRuleArn] that ends in
    [rule/MyRule]. *)
Theorem TopicRule_new_explicit_name :
  forall (p : list string) (id : string) (sql : IotSql.t) (tree : Tree),
    exists (r : ITopicRule.t) (tree' : Tree),
      TopicRule_new (at_path p) id (TopicRuleProps.mk (Some "MyRule") sql) tree
      = (Return r, tree')
      /\ ITopicRule.topicRuleName r = "MyRule"
      /\ endsWith (ITopicRule.topicRuleArn r) "rule/MyRule" = true.
Proof.
  intros p id sql tree.
  rewrite TopicRule_new_run. eexists. eexists. split; [reflexivity|].
  split; [reflexivity|].
  apply (Arn_format_rule partition region account "iot" "MyRule").
Qed.

(** The ARN of a rule constructed with a name that has no [:] imports back
    as the same identity. *)
Lemma import_of_constructed (p q : list string) (id id' name : string)
  (sql : IotSql.t) (tree tree' : Tree) (r : ITopicRule.t) :
  name <> EmptyString ->
  has_char ":" name = false ->
  fst (TopicRule_new (at_path p) id (TopicRuleProps.mk (Some name) sql) tree)
  = Return r ->
  fst (fromTopicRuleArn (at_path q) id' (ITopicRule.topicRuleArn r) tree')
  = Return r.
Proof.
  intros Hne Hc. rewrite TopicRule_new_run. cbn [fst]. intros H.
  injection H as <-.
  cbn [ITopicRule.topicRuleArn realisedName TopicRuleProps.topicRuleName
       Stack_of coreStack Stack.formatArn].
  replace (Arn.format partition region account
             (ArnComponents.mk "iot" "rule" (Some name)))
    with (("arn:" ++ partition ++ ":iot:" ++ region ++ ":" ++ account)
            ++ ":rule/" ++ name).
  - exact (fromTopicRuleArn_rule q id' _ name tree' Hne Hc).
  - unfold Arn.format.
    cbn [ArnComponents.service ArnComponents.resource ArnComponents.resourceName].
    now rewrite !string_app_assoc.
Qed.

End ReferenceStack.

(** ** Rule identities *)







(** ** More on the import *)

(** X2.  The name of an imported rule is never the empty string. *)
Theorem fromTopicRuleArn_name_not_empty :
  forall (scope : Construct) (id topicRuleArn : string) (tree tree' : Tree)
         (r : ITopicRule.t),
    fromTopicRuleArn scope id topicRuleArn tree = (Return r, tree') ->
    ITopicRule.topicRuleName r <> EmptyString.
Proof.
  intros scope id arn tree tree' r.
  import_cases; intros H; inversion H; subst; clear H.
  discriminate.
Qed.

Lemma fromTopicRuleArn_name_not_empty_witness :
  ITopicRule.topicRuleName (ITopicRule.mk exampleArn "MyRule") <> EmptyString.
Proof.
  apply (fromTopicRuleArn_name_not_empty exampleScope "Imported" exampleArn []
           [mkNode ["Stack"; "Imported"]
              (ResourceNode (ResourceProps.mk None (Some exampleArn)))]
           (ITopicRule.mk exampleArn "MyRule")).
  reflexivity.
Defined.

(** X3.  Whether it returns or throws, the import leaves the records of
    the provisioning engine as they were. *)
Theorem fromTopicRuleArn_keeps_records :
  forall (scope : Construct) (id topicRuleArn : string) (tree : Tree),
    cfnResources (snd (fromTopicRuleArn scope id topicRuleArn tree))
    = cfnResources tree.
Proof.
  intros scope id arn tree. import_cases; cbn [snd]; try reflexivity.
  rewrite cfnResources_app. simpl. apply app_nil_r.
Qed.

(** X4.  Two imports of one identifier in one stack that both return,
    return the same identity, whatever the constructs they are attached
    to, the ids they are given and the trees they run in. *)
Theorem fromTopicRuleArn_identity_of_arn :
  forall (stack : Stack.t) (p p' : list string) (id id' topicRuleArn : string)
         (tree tree' t t' : Tree) (r r' : ITopicRule.t),
    fromTopicRuleArn (mkConstruct p stack) id topicRuleArn tree = (Return r, t) ->
    fromTopicRuleArn (mkConstruct p' stack) id' topicRuleArn tree' = (Return r', t') ->
    r = r'.
Proof.
  intros stack p p' id id' arn tree tree' t t' r r'.
  rewrite !fromTopicRuleArn_run. cbn [Stack_of].
  destruct (ArnComponents.resourceName _) as [[|c s]|]; intros H H';
    inversion H; inversion H'; subst; reflexivity.
Qed.

Lemma fromTopicRuleArn_identity_of_arn_witness :
  exists r r' : ITopicRule.t,
    fst (fromTopicRuleArn (mkConstruct ["Stack"] exampleStack) "Imported"
           exampleArn [])
    = Return r
    /\ fst (fromTopicRuleArn (mkConstruct ["Stack"; "Nested"] exampleStack) "Again"
              exampleArn
              [mkNode ["Stack"; "Imported"]
                 (ResourceNode (ResourceProps.mk None (Some exampleArn)))])
       = Return r'
    /\ r = r'.
Proof.
  exists (ITopicRule.mk exampleArn "MyRule"), (ITopicRule.mk exampleArn "MyRule").
  split; [reflexivity|]. split; [reflexivity|].
  apply (fromTopicRuleArn_identity_of_arn exampleStack ["Stack"] ["Stack"; "Nested"]
           "Imported" "Again" exampleArn
           []
           [mkNode ["Stack"; "Imported"]
              (ResourceNode (ResourceProps.mk None (Some exampleArn)))]
           (snd (fromTopicRuleArn (mkConstruct ["Stack"] exampleStack) "Imported"
                   exampleArn []))
           (snd (fromTopicRuleArn (mkConstruct ["Stack"; "Nested"] exampleStack)
                   "Again" exampleArn
                   [mkNode ["Stack"; "Imported"]
                      (ResourceNode (ResourceProps.mk None (Some exampleArn)))]))).
  - reflexivity.
  - reflexivity.
Defined.

(** X5.  The import reads nothing of the split but the resource name: two
    stacks whose splits agree on it, whatever service and resource type
    they report, give the same run. *)
Theorem fromTopicRuleArn_reads_resourceName_only :
  forall (stack stack' : Stack.t) (p : list string) (id topicRuleArn : string)
         (tree : Tree),
    ArnComponents.resourceName (Stack.splitArn stack topicRuleArn SLASH_RESOURCE_NAME)
    = ArnComponents.resourceName (Stack.splitArn stack' topicRuleArn SLASH_RESOURCE_NAME) ->
    fromTopicRuleArn (mkConstruct p stack) id topicRuleArn tree
    = fromTopicRuleArn (mkConstruct p stack') id topicRuleArn tree.
Proof.
  intros stack stack' p id arn tree H.
  rewrite !fromTopicRuleArn_run. cbn [Stack_of path]. now rewrite H.
Qed.

Lemma fromTopicRuleArn_reads_resourceName_only_witness :
  fromTopicRuleArn (mkConstruct ["Stack"] exampleStack) "Imported" exampleArn []
  = fromTopicRuleArn (mkConstruct ["Stack"] relabelledStack) "Imported" exampleArn [].
Proof.
  apply (fromTopicRuleArn_reads_resourceName_only exampleStack relabelledStack
           ["Stack"] "Imported" exampleArn []).
  reflexivity.
Defined.
